(** * MicroBitFileSystem: the compatibility facade over CodalFS

    A shallow embedding of [source/MicroBitFileSystem.cpp] and
    [inc/MicroBitFileSystem.h].  Every member function of the class is one
    statement: a call on the object [CodalFS::defaultFileSystem] points to.
    The engine behind that pointer is declared in [CodalFS.h], outside these
    two files, so it enters the development as an interface (a type class)
    and every theorem holds for every implementation of it. *)

From Stdlib Require Import ZArith List Lia.
From stdpp Require Import base strings gmap.
Import ListNotations.
Local Open Scope Z_scope.

(** ** C++ scalar types

    No member function of the facade computes with its arguments, so the
    machine integers are carried as [Z] and never wrapped.  Pointers
    ([char const *], [uint8_t *], [this]) are addresses. *)

Abbreviation int := Z (only parsing).
Abbreviation uint32_t := Z (only parsing).
Abbreviation uint8_t := Z (only parsing).
Abbreviation ptr := Z (only parsing).

(** An actual argument of a call, tagged with its C++ type; argument lists
    are compared as lists, so order matters. *)
Inductive Arg : Type :=
| APtr (p : ptr)
| AInt (i : int)
| AU32 (u : uint32_t)
| AU8 (u : uint8_t).

#[global] Instance Arg_eq_dec : EqDecision Arg := ltac:(solve_decision).

(** ** The engine interface used by the facade (declared in [CodalFS.h]) *)

Module CodalFS.

(** The member functions the facade calls on [*CodalFS::defaultFileSystem],
    as state transformers over the engine's state [E].  [E] stands for
    everything the engine can reach (its tables, the flash, the caller's
    buffers).  The parameter types are those of the facade's actual
    arguments; [init] is called as a statement, so its result type is left
    open. *)
Class Engine (E : Type) : Type := {
  init_result : Type;
  init : E -> init_result * E;
  createDirectory : ptr -> E -> int * E;
  open : ptr -> uint32_t -> E -> int * E;
  flush : int -> E -> int * E;
  close : int -> E -> int * E;
  seek : int -> int -> uint8_t -> E -> int * E;
  read : int -> ptr -> int -> E -> int * E;
  write : int -> ptr -> int -> E -> int * E;
  remove : ptr -> E -> int * E
}.

(** One call on the engine object: the member function and its actual
    arguments. *)
Inductive Call : Type :=
| Init
| CreateDirectory (name : ptr)
| Open (filename : ptr) (flags : uint32_t)
| Flush (fd : int)
| Close (fd : int)
| Seek (fd : int) (offset : int) (flags : uint8_t)
| Read (fd : int) (buffer : ptr) (size : int)
| Write (fd : int) (buffer : ptr) (size : int)
| Remove (filename : ptr).

#[global] Instance Call_eq_dec : EqDecision Call := ltac:(solve_decision).

Definition name (c : Call) : string :=
  match c with
  | Init => "init"
  | CreateDirectory _ => "createDirectory"
  | Open _ _ => "open"
  | Flush _ => "flush"
  | Close _ => "close"
  | Seek _ _ _ => "seek"
  | Read _ _ _ => "read"
  | Write _ _ _ => "write"
  | Remove _ => "remove"
  end.

Definition args (c : Call) : list Arg :=
  match c with
  | Init => []
  | CreateDirectory n => [APtr n]
  | Open f fl => [APtr f; AU32 fl]
  | Flush fd => [AInt fd]
  | Close fd => [AInt fd]
  | Seek fd off fl => [AInt fd; AInt off; AU8 fl]
  | Read fd b sz => [AInt fd; APtr b; AInt sz]
  | Write fd b sz => [AInt fd; APtr b; AInt sz]
  | Remove f => [APtr f]
  end.

Definition is_init (c : Call) : bool :=
  match c with Init => true | _ => false end.

Section Perform.
Context {E : Type} `{Engine E}.

Definition result (c : Call) : Type :=
  match c with Init => init_result | _ => int end.

(** Dispatch of a call to the member function it names. *)
Definition perform (c : Call) : E -> result c * E :=
  match c as c0 return E -> result c0 * E with
  | Init => init
  | CreateDirectory n => createDirectory n
  | Open f fl => open f fl
  | Flush fd => flush fd
  | Close fd => close fd
  | Seek fd off fl => seek fd off fl
  | Read fd b sz => read fd b sz
  | Write fd b sz => write fd b sz
  | Remove f => remove f
  end.

(** The result of a call as the facade's caller can receive it: an [int],
    or nothing for [init], whose result no caller of the facade is given. *)
Definition value (c : Call) : result c -> option int :=
  match c as c0 return result c0 -> option int with
  | Init => fun _ => None
  | _ => fun x => Some x
  end.
End Perform.

End CodalFS.

(** ** The facade *)

Module MicroBitFileSystem.

(** The non-static data members of [class MicroBitFileSystem]: there are
    none (the header declares one static pointer and member functions). *)
Record Fields : Type := mkFields {}.

Section Facade.
Context {E : Type} `{CodalFS.Engine E}.

(** What a call of the facade can reach.  [calls] is a ghost history of
    the calls made on the engine, in order; the program never reads it. *)
Record World : Type := mkWorld {
  defaultFileSystem : ptr;          (* MicroBitFileSystem::defaultFileSystem *)
  objects : gmap Z Fields;          (* the facade instances, by address *)
  codal : E;                        (* *CodalFS::defaultFileSystem *)
  calls : list CodalFS.Call
}.

Definition M (A : Type) : Type := World -> A * World.

Definition ret {A : Type} (a : A) : M A := fun w => (a, w).

Definition bind {A B : Type} (m : M A) (k : A -> M B) : M B :=
  fun w => let (a, w') := m w in k a w'.

(** [CodalFS::defaultFileSystem->c]: the engine runs the call on its own
    state and hands back the result. *)
Definition invoke (c : CodalFS.Call) : M (CodalFS.result c) :=
  fun w =>
    let (r, e') := CodalFS.perform c (codal w) in
    (r, {| defaultFileSystem := defaultFileSystem w;
           objects := objects w;
           codal := e';
           calls := calls w ++ [c] |}).

(** [MicroBitFileSystem::MicroBitFileSystem(uint32_t flashStart, int flashPages)] *)
Definition MicroBitFileSystem (this : ptr) (flashStart : uint32_t) (flashPages : int)
  : M unit :=
  bind (invoke CodalFS.Init) (fun _ => ret tt).

(** [int MicroBitFileSystem::createDirectory(char const *name)] *)
Definition createDirectory (this : ptr) (name : ptr) : M int :=
  invoke (CodalFS.CreateDirectory name).

(** [int MicroBitFileSystem::open(char const * filename, uint32_t flags)] *)
Definition open (this : ptr) (filename : ptr) (flags : uint32_t) : M int :=
  invoke (CodalFS.Open filename flags).

(** [int MicroBitFileSystem::flush(int fd)] *)
Definition flush (this : ptr) (fd : int) : M int :=
  invoke (CodalFS.Flush fd).

(** [int MicroBitFileSystem::close(int fd)] *)
Definition close (this : ptr) (fd : int) : M int :=
  invoke (CodalFS.Close fd).

(** [int MicroBitFileSystem::seek(int fd, int offset, uint8_t flags)] *)
Definition seek (this : ptr) (fd : int) (offset : int) (flags : uint8_t) : M int :=
  invoke (CodalFS.Seek fd offset flags).

(** [int MicroBitFileSystem::read(int fd, uint8_t* buffer, int size)] *)
Definition read (this : ptr) (fd : int) (buffer : ptr) (size : int) : M int :=
  invoke (CodalFS.Read fd buffer size).

(** [int MicroBitFileSystem::write(int fd, uint8_t* buffer, int size)] *)
Definition write (this : ptr) (fd : int) (buffer : ptr) (size : int) : M int :=
  invoke (CodalFS.Write fd buffer size).

(** [int MicroBitFileSystem::remove(char const * filename)] *)
Definition remove (this : ptr) (filename : ptr) : M int :=
  invoke (CodalFS.Remove filename).

(** The expression [new MicroBitFileSystem(flashStart, flashPages)], with
    [p] the storage the allocation function returned: the object comes
    into being at [p], the constructor runs on it, and the value of the
    expression is [p]. *)
Definition new_MicroBitFileSystem (p : ptr) (flashStart : uint32_t) (flashPages : int)
  : M ptr :=
  bind (fun w => (tt, {| defaultFileSystem := defaultFileSystem w;
                         objects := <[p := mkFields]> (objects w);
                         codal := codal w;
                         calls := calls w |}))
       (fun _ => bind (MicroBitFileSystem p flashStart flashPages)
                      (fun _ => ret p)).

(** Line 27, run once when the module is loaded:
    [MicroBitFileSystem::defaultFileSystem = new MicroBitFileSystem(0, 0);] *)
Definition static_init (p : ptr) : M unit :=
  bind (new_MicroBitFileSystem p 0 0)
       (fun q w => (tt, {| defaultFileSystem := q;
                           objects := objects w;
                           codal := codal w;
                           calls := calls w |})).

End Facade.

Arguments World E : clear implicits.
Arguments M E : clear implicits.

End MicroBitFileSystem.

(** ** Calls on the public surface

    The nine public members of the class as data, so that statements can
    range over "every operation" and over sequences of calls. *)

Inductive Request : Type :=
| RConstruct (flashStart : uint32_t) (flashPages : int)
| RCreateDirectory (name : ptr)
| ROpen (filename : ptr) (flags : uint32_t)
| RFlush (fd : int)
| RClose (fd : int)
| RSeek (fd : int) (offset : int) (flags : uint8_t)
| RRead (fd : int) (buffer : ptr) (size : int)
| RWrite (fd : int) (buffer : ptr) (size : int)
| RRemove (filename : ptr).

Definition is_constructor (r : Request) : bool :=
  match r with RConstruct _ _ => true | _ => false end.

(** The member's name as the header declares it. *)
Definition req_name (r : Request) : string :=
  match r with
  | RConstruct _ _ => "MicroBitFileSystem"
  | RCreateDirectory _ => "createDirectory"
  | ROpen _ _ => "open"
  | RFlush _ => "flush"
  | RClose _ => "close"
  | RSeek _ _ _ => "seek"
  | RRead _ _ _ => "read"
  | RWrite _ _ _ => "write"
  | RRemove _ => "remove"
  end.

(** The caller's actual arguments, in the order of the declaration. *)
Definition req_args (r : Request) : list Arg :=
  match r with
  | RConstruct fs fp => [AU32 fs; AInt fp]
  | RCreateDirectory n => [APtr n]
  | ROpen f fl => [APtr f; AU32 fl]
  | RFlush fd => [AInt fd]
  | RClose fd => [AInt fd]
  | RSeek fd off fl => [AInt fd; AInt off; AU8 fl]
  | RRead fd b sz => [AInt fd; APtr b; AInt sz]
  | RWrite fd b sz => [AInt fd; APtr b; AInt sz]
  | RRemove f => [APtr f]
  end.

(** What client code can do with the class: call a member on a receiver
    (for [RConstruct], construct in the storage at [this]), or evaluate a
    [new] expression whose allocation returned [p]. *)
Inductive Step : Type :=
| Invoke (this : ptr) (r : Request)
| New (p : ptr) (flashStart : uint32_t) (flashPages : int).

Definition constructs (s : Step) : bool :=
  match s with
  | Invoke _ r => is_constructor r
  | New _ _ _ => true
  end.

(** The same step with the constructor's actual arguments replaced by the
    defaults of the declaration, [flashStart = 0, flashPages = 0]. *)
Definition default_args (s : Step) : Step :=
  match s with
  | Invoke this (RConstruct _ _) => Invoke this (RConstruct 0 0)
  | Invoke this r => Invoke this r
  | New p _ _ => New p 0 0
  end.

(** The engine call in the body of each public member. *)
Definition call_of (r : Request) : CodalFS.Call :=
  match r with
  | RConstruct _ _ => CodalFS.Init
  | RCreateDirectory n => CodalFS.CreateDirectory n
  | ROpen f fl => CodalFS.Open f fl
  | RFlush fd => CodalFS.Flush fd
  | RClose fd => CodalFS.Close fd
  | RSeek fd off fl => CodalFS.Seek fd off fl
  | RRead fd b sz => CodalFS.Read fd b sz
  | RWrite fd b sz => CodalFS.Write fd b sz
  | RRemove f => CodalFS.Remove f
  end.

Definition count_inits (l : list CodalFS.Call) : nat :=
  length (filter (fun c => CodalFS.is_init c = true) l).

Definition constructions (prog : list Step) : nat :=
  length (filter (fun s => constructs s = true) prog).

Section Client.
Context {E : Type} `{CodalFS.Engine E}.
Import MicroBitFileSystem.

(** Member call [this->r]; the constructor yields no value. *)
Definition exec (this : ptr) (r : Request) : M E (option int) :=
  match r with
  | RConstruct fs fp => bind (MicroBitFileSystem this fs fp) (fun _ => ret None)
  | RCreateDirectory n => bind (createDirectory this n) (fun x => ret (Some x))
  | ROpen f fl => bind (open this f fl) (fun x => ret (Some x))
  | RFlush fd => bind (flush this fd) (fun x => ret (Some x))
  | RClose fd => bind (close this fd) (fun x => ret (Some x))
  | RSeek fd off fl => bind (seek this fd off fl) (fun x => ret (Some x))
  | RRead fd b sz => bind (read this fd b sz) (fun x => ret (Some x))
  | RWrite fd b sz => bind (write this fd b sz) (fun x => ret (Some x))
  | RRemove f => bind (remove this f) (fun x => ret (Some x))
  end.

Definition step (s : Step) (w : World E) : World E :=
  match s with
  | Invoke this r => snd (exec this r w)
  | New p fs fp => snd (new_MicroBitFileSystem p fs fp w)
  end.

(** [delegated w c e']: the world [w] after the engine, and nothing else,
    has performed the call [c] and reached the state [e']. *)
Definition delegated (w : World E) (c : CodalFS.Call) (e' : E) : World E :=
  {| defaultFileSystem := defaultFileSystem w;
     objects := objects w;
     codal := e';
     calls := calls w ++ [c] |}.

(** [same_facade w w']: the facade's own state (its static pointer and
    its instances) is the same in both worlds. *)
Definition same_facade (w w' : World E) : Prop :=
  defaultFileSystem w' = defaultFileSystem w /\ objects w' = objects w.

(** A program of client code, run from left to right. *)
Definition run (prog : list Step) (w : World E) : World E :=
  fold_left (fun w s => step s w) prog w.

(** The calls a run added to the history. *)
Definition calls_since (w w' : World E) : list CodalFS.Call :=
  drop (length (calls w)) (calls w').

(** [forwards this r w]: the member call [this->r] from [w] makes exactly
    one call on the engine, and that call carries the caller's own
    argument list. *)
Definition forwards (this : ptr) (r : Request) (w : World E) : bool :=
  match calls_since w (snd (exec this r w)) with
  | [c] => bool_decide (CodalFS.args c = req_args r)
  | _ => false
  end.

End Client.

(** ** Whole programs of client code

    [run] above executes a fixed list of steps.  Client code also feeds the
    result of one call into the next (the handle [open] returned goes to
    [write] and [close]), so programs are given as trees as well: each
    member call continues according to the value it returned. *)

(** The engine call a step ends in. *)
Definition step_call (s : Step) : CodalFS.Call :=
  match s with
  | Invoke _ r => call_of r
  | New _ _ _ => CodalFS.Init
  end.

Inductive Client (A : Type) : Type :=
| Done (a : A)
| Member (this : ptr) (r : Request) (k : option int -> Client A)
| NewInstance (p : ptr) (flashStart : uint32_t) (flashPages : int)
              (k : ptr -> Client A).

Arguments Done {A} a.
Arguments Member {A} this r k.
Arguments NewInstance {A} p flashStart flashPages k.

(** The same program with every member call made on the receiver [f this]
    instead of [this]. *)
Fixpoint with_receiver {A : Type} (f : ptr -> ptr) (prog : Client A) : Client A :=
  match prog with
  | Done a => Done a
  | Member this r k => Member (f this) r (fun x => with_receiver f (k x))
  | NewInstance p fs fp k => NewInstance p fs fp (fun q => with_receiver f (k q))
  end.

Section Programs.
Context {E : Type} `{CodalFS.Engine E}.
Import MicroBitFileSystem.

(** The engine driven directly through a list of calls, results dropped. *)
Definition drive (cs : list CodalFS.Call) (e : E) : E :=
  fold_left (fun e c => snd (CodalFS.perform c e)) cs e.

(** A client program run against the facade. *)
Fixpoint via_facade {A : Type} (prog : Client A) : M E A :=
  match prog with
  | Done a => ret a
  | Member this r k => bind (exec this r) (fun x => via_facade (k x))
  | NewInstance p fs fp k =>
      bind (new_MicroBitFileSystem p fs fp) (fun q => via_facade (k q))
  end.

(** The same program run against the engine alone, with no facade in
    between: each member call becomes the engine call of [call_of], each
    construction an [init]. *)
Fixpoint direct {A : Type} (prog : Client A) (e : E) : A * E :=
  match prog with
  | Done a => (a, e)
  | Member _ r k =>
      let (x, e') := CodalFS.perform (call_of r) e in
      direct (k (CodalFS.value (call_of r) x)) e'
  | NewInstance p _ _ k =>
      let (_, e') := CodalFS.init e in direct (k p) e'
  end.

End Programs.

(** ** A stand-in engine

    A small in-memory implementation of the interface, used only to run the
    model on concrete inputs.  It is not the CodalFS engine: its answers are
    arbitrary but depend on its state and on every argument, so that a
    dropped, swapped or altered argument would show. *)

Module Stub.

Record State : Type := mkState {
  inits : nat;                 (* how often [init] ran *)
  next_fd : Z;                 (* the next handle [open] gives out *)
  written : Z                  (* bytes accepted by [write] so far *)
}.

Definition fresh_state : State := {| inits := 0; next_fd := 0; written := 0 |}.

Definition valid_fd (s : State) (fd : Z) : bool := (0 <=? fd) && (fd <? next_fd s).

Definition init (s : State) : Z * State :=
  (Z.of_nat (inits s),
   {| inits := S (inits s); next_fd := next_fd s; written := written s |}).

Definition open (filename flags : Z) (s : State) : Z * State :=
  match inits s with
  | O => (-1002, s)
  | S _ =>
      if filename =? 0 then (-1001, s)
      else (next_fd s + 100 * flags,
            {| inits := inits s; next_fd := next_fd s + 1; written := written s |})
  end.

Definition flush (fd : Z) (s : State) : Z * State :=
  if valid_fd s fd then (0, s) else (-1001, s).

Definition close (fd : Z) (s : State) : Z * State :=
  if valid_fd s fd then (1, s) else (-1001, s).

Definition seek (fd offset flags : Z) (s : State) : Z * State :=
  if valid_fd s fd then (offset + 1000 * flags, s) else (-1001, s).

Definition read (fd buffer size : Z) (s : State) : Z * State :=
  if valid_fd s fd then (Z.min size (written s), s) else (-1001, s).

Definition write (fd buffer size : Z) (s : State) : Z * State :=
  if valid_fd s fd
  then (size, {| inits := inits s; next_fd := next_fd s; written := written s + size |})
  else (-1001, s).

Definition remove (filename : Z) (s : State) : Z * State :=
  if filename =? 0 then (-1001, s) else (0, s).

Definition createDirectory (name : Z) (s : State) : Z * State :=
  if name =? 0 then (-1001, s) else (0, s).

#[global] Instance engine : CodalFS.Engine State := {|
  CodalFS.init_result := Z;
  CodalFS.init := init;
  CodalFS.createDirectory := createDirectory;
  CodalFS.open := open;
  CodalFS.flush := flush;
  CodalFS.close := close;
  CodalFS.seek := seek;
  CodalFS.read := read;
  CodalFS.write := write;
  CodalFS.remove := remove
|}.

(** The world before the module is loaded: the static pointer is
    zero-initialised, no instance exists, the engine is untouched. *)
Definition boot : MicroBitFileSystem.World State :=
  {| MicroBitFileSystem.defaultFileSystem := 0;
     MicroBitFileSystem.objects := ∅;
     MicroBitFileSystem.codal := fresh_state;
     MicroBitFileSystem.calls := [] |}.

(** The world once line 27 has run, with the default instance at 0x20001000. *)
Definition loaded : MicroBitFileSystem.World State :=
  snd (MicroBitFileSystem.static_init 536875008 boot).

(** A second world for comparisons: the engine is in the state it has in
    [loaded], but the static pointer is null, no instance exists and the
    history is empty. *)
Definition bare : MicroBitFileSystem.World State :=
  {| MicroBitFileSystem.defaultFileSystem := 0;
     MicroBitFileSystem.objects := ∅;
     MicroBitFileSystem.codal := MicroBitFileSystem.codal loaded;
     MicroBitFileSystem.calls := [] |}.

End Stub.


(** The usage the header documents for [write], as a client program:
    open the file named at address 77 with flags 0, write seven bytes from
    the buffer at 4096 through the handle obtained, close it, and report
    what [write] returned; give up when [open] returned a negative code. *)
Definition write_hello (this : Z) : Client (option Z) :=
  Member this (ROpen 77 0)
    (fun fd =>
       match fd with
       | Some fd =>
           if fd <? 0 then Done None
           else Member this (RWrite fd 4096 7)
                  (fun n => Member this (RClose fd) (fun _ => Done n))
       | None => Done None
       end).

(** * Properties *)

Section Properties.
Context {E : Type} `{CodalFS.Engine E}.
Import MicroBitFileSystem.

Implicit Types (w : World E) (c : CodalFS.Call) (r : Request) (s : Step).

(** ** The single primitive *)

Lemma invoke_delegates c w :
  invoke c w =
  (fst (CodalFS.perform c (codal w)),
   delegated w c (snd (CodalFS.perform c (codal w)))).
Proof.
  unfold invoke, delegated.
  destruct (CodalFS.perform c (codal w)) as [x e']; reflexivity.
Qed.

Lemma calls_since_delegated w c e' : calls_since w (delegated w c e') = [c].
Proof.
  unfold calls_since, delegated; cbn [calls].
  apply drop_app_length.
Qed.

Lemma calls_since_app w w' l :
  calls w' = calls w ++ l -> calls_since w w' = l.
Proof.
  intros Heq; unfold calls_since; rewrite Heq; apply drop_app_length.
Qed.

(** Unfold a member function down to the engine call it makes. *)
Ltac member :=
  unfold exec, MicroBitFileSystem, createDirectory, open, flush, close, seek,
    read, write, remove, bind, ret;
  rewrite ?invoke_delegates; cbn [fst snd CodalFS.perform CodalFS.value].

Lemma exec_delegates this r w :
  exec this r w =
  (CodalFS.value (call_of r) (fst (CodalFS.perform (call_of r) (codal w))),
   delegated w (call_of r) (snd (CodalFS.perform (call_of r) (codal w)))).
Proof. destruct r; member; reflexivity. Qed.

Lemma call_of_name_args r :
  is_constructor r = false ->
  CodalFS.name (call_of r) = req_name r /\
  CodalFS.args (call_of r) = req_args r /\
  CodalFS.is_init (call_of r) = false.
Proof. destruct r; cbn; intros Hr; try discriminate Hr; auto. Qed.

Lemma exec_calls this r w : calls (snd (exec this r w)) = calls w ++ [call_of r].
Proof. rewrite exec_delegates; reflexivity. Qed.

Lemma forwards_iff this r w :
  forwards this r w = true <-> CodalFS.args (call_of r) = req_args r.
Proof.
  unfold forwards.
  rewrite (calls_since_app w _ [call_of r]) by apply exec_calls.
  apply bool_decide_eq_true.
Qed.

(** ** Steps and programs *)

Lemma step_new p fs fp w :
  step (New p fs fp) w =
  delegated {| defaultFileSystem := defaultFileSystem w;
               objects := <[p := mkFields]> (objects w);
               codal := codal w;
               calls := calls w |}
            CodalFS.Init (snd (CodalFS.init (codal w))).
Proof.
  unfold step, new_MicroBitFileSystem; member; reflexivity.
Qed.

Lemma step_one_call s w :
  exists c, calls (step s w) = calls w ++ [c] /\
            CodalFS.is_init c = constructs s.
Proof.
  destruct s as [this r | p fs fp].
  - exists (call_of r); split.
    + apply exec_calls.
    + destruct r; reflexivity.
  - exists CodalFS.Init; rewrite step_new; split; reflexivity.
Qed.

Lemma step_keeps_default s w :
  defaultFileSystem (step s w) = defaultFileSystem w.
Proof.
  destruct s as [this r | p fs fp].
  - unfold step; rewrite exec_delegates; reflexivity.
  - rewrite step_new; reflexivity.
Qed.

Lemma run_cons s prog w : run (s :: prog) w = run prog (step s w).
Proof. reflexivity. Qed.

Lemma count_inits_snoc l c :
  count_inits (l ++ [c]) =
  (count_inits l + (if CodalFS.is_init c then 1 else 0))%nat.
Proof.
  unfold count_inits; rewrite filter_app, length_app; f_equal.
  destruct c; reflexivity.
Qed.

Lemma run_keeps_default prog :
  forall w, defaultFileSystem (run prog w) = defaultFileSystem w.
Proof.
  induction prog as [|s prog IH]; intros w; [reflexivity|].
  rewrite run_cons, IH; apply step_keeps_default.
Qed.

Lemma run_counts_inits prog :
  forall w,
    count_inits (calls (run prog w)) =
    (count_inits (calls w) + constructions prog)%nat.
Proof.
  induction prog as [|s prog IH]; intros w.
  - cbn; lia.
  - rewrite run_cons, IH.
    destruct (step_one_call s w) as (c & Hc & Hi).
    rewrite Hc, count_inits_snoc, Hi.
    unfold constructions; rewrite filter_cons.
    destruct (constructs s) eqn:Hs.
    + rewrite decide_True by reflexivity; cbn [length]; lia.
    + rewrite decide_False by discriminate; lia.
Qed.

Lemma step_default_args s w : step (default_args s) w = step s w.
Proof.
  destruct s as [this r | p fs fp]; [destruct r|]; reflexivity.
Qed.

(** ** Properties of the specification *)

(** C1. Pass-through identity: for each of the eight file operations and
    for all arguments, the value the facade returns is the value the
    engine returns for the same arguments, and the world afterwards is the
    world before with exactly that one engine call performed: the engine
    is in the state the call left it in, one call was added to the
    history, and nothing else changed.  Whatever code the engine answers
    comes back as it is. *)
Theorem pass_through_identity this w :
  (forall name,
      createDirectory this name w =
      let (x, e') := CodalFS.createDirectory name (codal w) in
      (x, delegated w (CodalFS.CreateDirectory name) e')) /\
  (forall filename flags,
      open this filename flags w =
      let (x, e') := CodalFS.open filename flags (codal w) in
      (x, delegated w (CodalFS.Open filename flags) e')) /\
  (forall fd,
      flush this fd w =
      let (x, e') := CodalFS.flush fd (codal w) in
      (x, delegated w (CodalFS.Flush fd) e')) /\
  (forall fd,
      close this fd w =
      let (x, e') := CodalFS.close fd (codal w) in
      (x, delegated w (CodalFS.Close fd) e')) /\
  (forall fd offset flags,
      seek this fd offset flags w =
      let (x, e') := CodalFS.seek fd offset flags (codal w) in
      (x, delegated w (CodalFS.Seek fd offset flags) e')) /\
  (forall fd buffer size,
      read this fd buffer size w =
      let (x, e') := CodalFS.read fd buffer size (codal w) in
      (x, delegated w (CodalFS.Read fd buffer size) e')) /\
  (forall fd buffer size,
      write this fd buffer size w =
      let (x, e') := CodalFS.write fd buffer size (codal w) in
      (x, delegated w (CodalFS.Write fd buffer size) e')) /\
  (forall filename,
      remove this filename w =
      let (x, e') := CodalFS.remove filename (codal w) in
      (x, delegated w (CodalFS.Remove filename) e')).
Proof.
  repeat split; intros;
    unfold createDirectory, open, flush, close, seek, read, write, remove, invoke;
    cbn [CodalFS.perform];
    match goal with |- context [let (_, _) := ?call in _] => destruct call end;
    reflexivity.
Qed.

(** C2, as amended. Each of the nine public members makes exactly one call
    on the one engine object and does nothing else.  For the eight named
    operations it is the operation of the same name with the caller's own
    arguments.  For the constructor it is [init], called with no
    arguments: the constructor's own two arguments are not handed on. *)
Theorem pass_through_nine this r w :
  exists c,
    exec this r w =
    (CodalFS.value c (fst (CodalFS.perform c (codal w))),
     delegated w c (snd (CodalFS.perform c (codal w)))) /\
    if is_constructor r
    then c = CodalFS.Init /\ CodalFS.args c = [] /\ forwards this r w = false
    else CodalFS.name c = req_name r /\ CodalFS.args c = req_args r /\
         forwards this r w = true.
Proof.
  exists (call_of r); split; [apply exec_delegates|].
  destruct (is_constructor r) eqn:Hr.
  - destruct r; try discriminate Hr.
    repeat split.
    apply not_true_is_false; rewrite forwards_iff; discriminate.
  - destruct (call_of_name_args r Hr) as (Hn & Ha & _).
    repeat split; auto.
    apply forwards_iff, Ha.
Qed.

(** C3. For each of the eight named operations and for all arguments and
    every state of the world, the facade makes the call of the same name
    on the engine with the same argument list (same values, same order),
    whatever the arguments are, and returns the engine's result as it
    is. *)
Theorem forwarding_verbatim this r w :
  is_constructor r = false ->
  exists c,
    CodalFS.name c = req_name r /\
    CodalFS.args c = req_args r /\
    CodalFS.is_init c = false /\
    exec this r w =
    (CodalFS.value c (fst (CodalFS.perform c (codal w))),
     delegated w c (snd (CodalFS.perform c (codal w)))).
Proof.
  intros Hr; exists (call_of r).
  destruct (call_of_name_args r Hr) as (Hn & Ha & Hi).
  repeat split; auto using exec_delegates.
Qed.

(** C4. Every construction calls [init] exactly once on the shared engine:
    the constructor run on any storage, a [new] expression, and the
    initialiser of the static pointer that runs at load time.  The call is
    made whatever state the engine is in, so each further construction
    initialises the shared engine again; over a whole program the number
    of [init] calls grows by the number of constructions. *)
Theorem construction_inits_once w :
  (forall this flashStart flashPages,
      MicroBitFileSystem this flashStart flashPages w =
      (tt, delegated w CodalFS.Init (snd (CodalFS.init (codal w))))) /\
  (forall p flashStart flashPages,
      let w' := snd (new_MicroBitFileSystem p flashStart flashPages w) in
      calls_since w w' = [CodalFS.Init] /\
      codal w' = snd (CodalFS.init (codal w))) /\
  (forall p,
      let w' := snd (static_init p w) in
      calls_since w w' = [CodalFS.Init] /\
      codal w' = snd (CodalFS.init (codal w))) /\
  (forall prog,
      count_inits (calls (run prog w)) =
      (count_inits (calls w) + constructions prog)%nat).
Proof.
  split; [|split; [|split]].
  - intros; member; reflexivity.
  - intros p fs fp w'; subst w'.
    change (snd (new_MicroBitFileSystem p fs fp w)) with (step (New p fs fp) w).
    rewrite step_new; split; [|reflexivity].
    apply calls_since_app; reflexivity.
  - intros p w'; subst w'.
    unfold static_init, new_MicroBitFileSystem; member.
    split; [|reflexivity].
    apply calls_since_app; reflexivity.
  - intros prog; apply run_counts_inits.
Qed.

(** C5. The static pointer [MicroBitFileSystem::defaultFileSystem] is
    given its value by the initialiser at load time, and no operation of
    the facade assigns it afterwards: after any program of member calls,
    constructions and [new] expressions it still holds the address
    assigned at load time. *)
Theorem default_pointer_never_reassigned p w prog :
  defaultFileSystem (snd (static_init p w)) = p /\
  defaultFileSystem (run prog (snd (static_init p w))) = p.
Proof.
  assert (Hp : defaultFileSystem (snd (static_init p w)) = p).
  { unfold static_init, new_MicroBitFileSystem; member; reflexivity. }
  split; [exact Hp|].
  rewrite run_keeps_default; exact Hp.
Qed.

(** C6. Frame: an instance has no state of its own (any two values of its
    data members are equal), and each of the nine members leaves the
    static pointer and all instances as they were; what changed is inside
    the engine: putting the engine's old state (and the old history) back
    gives the old world. *)
Theorem facade_frame :
  (forall a b : Fields, a = b) /\
  (forall this r w,
      let w' := snd (exec this r w) in
      same_facade w w' /\
      {| defaultFileSystem := defaultFileSystem w';
         objects := objects w';
         codal := codal w;
         calls := calls w |} = w).
Proof.
  split.
  - intros [] []; reflexivity.
  - intros this r w w'; subst w'.
    rewrite exec_delegates; cbn [snd].
    destruct w; repeat split.
Qed.

(** C7. Receiver and static-pointer independence: take any two receivers
    and any two worlds whose engines are in the same state, whatever the
    static pointer, the instances and the past are in each.  The same
    member call with the same arguments then returns the same value, makes
    the same call on the engine and leaves the engine in the same state. *)
Theorem receiver_independence this1 this2 r (w1 w2 : World E) :
  codal w1 = codal w2 ->
  fst (exec this1 r w1) = fst (exec this2 r w2) /\
  calls_since w1 (snd (exec this1 r w1)) =
  calls_since w2 (snd (exec this2 r w2)) /\
  codal (snd (exec this1 r w1)) = codal (snd (exec this2 r w2)).
Proof.
  intros He.
  rewrite !exec_delegates; cbn [fst snd].
  rewrite !calls_since_delegated, He.
  repeat split.
Qed.

(** C8. The constructor ignores both parameters: for all values of
    [flashStart] and [flashPages] it does the same thing, one [init] call
    on the engine, and a program behaves the same when every construction
    in it is given the default arguments 0, 0 instead of its own. *)
Theorem constructor_ignores_parameters this w :
  (forall fs fp fs' fp',
      MicroBitFileSystem this fs fp w = MicroBitFileSystem this fs' fp' w) /\
  (forall fs fp,
      MicroBitFileSystem this fs fp w =
      (tt, delegated w CodalFS.Init (snd (CodalFS.init (codal w))))) /\
  (forall prog w0, run (map default_args prog) w0 = run prog w0).
Proof.
  repeat split.
  - intros; member; reflexivity.
  - induction prog as [|s prog IH]; intros w0; [reflexivity|].
    cbn [map]; rewrite !run_cons, step_default_args; apply IH.
Qed.

End Properties.

(** * The theorems at work on the stand-in engine *)

(** C2, as first stated, fails at the constructor: constructing with
    [flashStart = 12288, flashPages = 4] makes the single engine call
    [init()], whose argument list is empty, not [12288, 4]. *)
Lemma constructor_drops_its_arguments :
  req_args (RConstruct 12288 4) = [AU32 12288; AInt 4] /\
  calls_since Stub.loaded (snd (exec 536875008 (RConstruct 12288 4) Stub.loaded))
  = [CodalFS.Init] /\
  CodalFS.args CodalFS.Init = [] /\
  forwards 536875008 (RConstruct 12288 4) Stub.loaded = false.
Proof. vm_compute; repeat split. Qed.

(** C3 at [seek(0, -100, 2)] on the loaded world. *)
Lemma forwarding_verbatim_seek :
  is_constructor (RSeek 0 (-100) 2) = false /\
  exists c,
    CodalFS.name c = "seek" /\
    CodalFS.args c = [AInt 0; AInt (-100); AU8 2] /\
    CodalFS.is_init c = false /\
    exec 536875008 (RSeek 0 (-100) 2) Stub.loaded =
    (CodalFS.value c (fst (CodalFS.perform c (MicroBitFileSystem.codal Stub.loaded))),
     delegated Stub.loaded c
       (snd (CodalFS.perform c (MicroBitFileSystem.codal Stub.loaded)))).
Proof.
  split; [reflexivity|].
  apply (forwarding_verbatim 536875008 (RSeek 0 (-100) 2) Stub.loaded).
  reflexivity.
Defined.

(** C7 at [open(77, 3)], called on the default instance in the loaded
    world and on a receiver at address 24 in the bare world. *)
Lemma receiver_independence_open :
  MicroBitFileSystem.codal Stub.loaded = MicroBitFileSystem.codal Stub.bare /\
  fst (exec 536875008 (ROpen 77 3) Stub.loaded) = fst (exec 24 (ROpen 77 3) Stub.bare) /\
  calls_since Stub.loaded (snd (exec 536875008 (ROpen 77 3) Stub.loaded)) =
  calls_since Stub.bare (snd (exec 24 (ROpen 77 3) Stub.bare)) /\
  MicroBitFileSystem.codal (snd (exec 536875008 (ROpen 77 3) Stub.loaded)) =
  MicroBitFileSystem.codal (snd (exec 24 (ROpen 77 3) Stub.bare)).
Proof.
  split; [reflexivity|].
  apply (receiver_independence 536875008 24 (ROpen 77 3) Stub.loaded Stub.bare).
  reflexivity.
Defined.


(** * Whole programs *)

Section ProgramProperties.
Context {E : Type} `{CodalFS.Engine E}.
Import MicroBitFileSystem.

Implicit Types (w : World E) (s : Step) (prog : list Step).

Lemma step_delegates s w :
  calls (step s w) = calls w ++ [step_call s] /\
  codal (step s w) = snd (CodalFS.perform (step_call s) (codal w)).
Proof.
  destruct s as [this r | p fs fp].
  - unfold step; rewrite exec_delegates; split; reflexivity.
  - rewrite step_new; split; reflexivity.
Qed.

Lemma run_delegates prog :
  forall w,
    calls (run prog w) = calls w ++ map step_call prog /\
    codal (run prog w) = drive (map step_call prog) (codal w).
Proof.
  induction prog as [|s prog IH]; intros w.
  - cbn; rewrite app_nil_r; split; reflexivity.
  - rewrite run_cons.
    destruct (IH (step s w)) as [Hc He].
    destruct (step_delegates s w) as [Hc1 He1].
    rewrite Hc, He, Hc1, He1, <- app_assoc; split; reflexivity.
Qed.

Lemma new_returns_storage p fs fp w :
  new_MicroBitFileSystem p fs fp w = (p, step (New p fs fp) w).
Proof.
  unfold step, new_MicroBitFileSystem, MicroBitFileSystem, bind, ret.
  rewrite invoke_delegates; reflexivity.
Qed.

Lemma via_facade_keeps_default {A : Type} (prog : Client A) :
  forall w, defaultFileSystem (snd (via_facade prog w)) = defaultFileSystem w.
Proof.
  induction prog as [a | this r k IH | p fs fp k IH]; intros w;
    cbn [via_facade]; unfold bind.
  - reflexivity.
  - rewrite exec_delegates, IH; reflexivity.
  - rewrite new_returns_storage, IH; apply step_keeps_default.
Qed.

Lemma via_facade_direct {A : Type} (prog : Client A) :
  forall w,
    fst (via_facade prog w) = fst (direct prog (codal w)) /\
    codal (snd (via_facade prog w)) = snd (direct prog (codal w)).
Proof.
  induction prog as [a | this r k IH | p fs fp k IH]; intros w.
  - repeat split.
  - cbn [via_facade direct]; unfold bind.
    rewrite exec_delegates.
    destruct (CodalFS.perform (call_of r) (codal w)) as [x e'] eqn:Hp.
    cbn [fst snd].
    apply (IH (CodalFS.value (call_of r) x) (delegated w (call_of r) e')).
  - cbn [via_facade direct]; unfold bind.
    rewrite new_returns_storage, step_new.
    change (CodalFS.init (codal w))
      with (CodalFS.perform CodalFS.Init (codal w)).
    destruct (CodalFS.perform CodalFS.Init (codal w)) as [x e'].
    cbn [snd].
    apply (IH p (delegated
                   {| defaultFileSystem := defaultFileSystem w;
                      objects := <[p := mkFields]> (objects w);
                      codal := codal w;
                      calls := calls w |} CodalFS.Init e')).
Qed.

Lemma direct_with_receiver {A : Type} (f : Z -> Z) (prog : Client A) :
  forall e : E, direct (with_receiver f prog) e = direct prog e.
Proof.
  induction prog as [a | this r k IH | p fs fp k IH]; intros e;
    cbn [with_receiver direct]; [reflexivity| |].
  - destruct (CodalFS.perform (call_of r) e) as [x e']; apply IH.
  - destruct (CodalFS.init e) as [x e']; apply IH.
Qed.

Lemma step_keeps_instance s w q :
  is_Some (objects w !! q) -> is_Some (objects (step s w) !! q).
Proof.
  intros Hq; destruct s as [this r | p fs fp].
  - unfold step; rewrite exec_delegates; exact Hq.
  - rewrite step_new; cbn [delegated objects].
    apply lookup_insert_is_Some'; right; exact Hq.
Qed.

Lemma run_keeps_instance prog :
  forall w q, is_Some (objects w !! q) -> is_Some (objects (run prog w) !! q).
Proof.
  induction prog as [|s prog IH]; intros w q Hq; [exact Hq|].
  rewrite run_cons; apply IH, step_keeps_instance, Hq.
Qed.

Lemma static_init_world p w :
  snd (static_init p w) =
  {| defaultFileSystem := p;
     objects := <[p := mkFields]> (objects w);
     codal := snd (CodalFS.init (codal w));
     calls := calls w ++ [CodalFS.Init] |}.
Proof.
  unfold static_init, new_MicroBitFileSystem, MicroBitFileSystem, bind, ret.
  rewrite invoke_delegates; reflexivity.
Qed.

(** X1. A program of member calls and constructions reaches the engine as
    exactly one call per step, in program order, each the call of that
    step: nothing is dropped, repeated, reordered or added, and the engine
    ends in the state those calls, made on it directly, lead to. *)
Theorem run_is_one_call_per_step prog w :
  calls (run prog w) = calls w ++ map step_call prog /\
  length (calls (run prog w)) = (length (calls w) + length prog)%nat /\
  codal (run prog w) = drive (map step_call prog) (codal w).
Proof.
  destruct (run_delegates prog w) as [Hc He].
  repeat split; auto.
  rewrite Hc, length_app, length_map; reflexivity.
Qed.

(** X2. Any client program, also one that feeds the results of earlier
    calls into later ones, computes the same result and leaves the engine
    in the same state through the facade as when it calls the engine
    directly; and it leaves the static pointer as it found it. *)
Theorem facade_is_transparent {A : Type} (prog : Client A) w :
  fst (via_facade prog w) = fst (direct prog (codal w)) /\
  codal (snd (via_facade prog w)) = snd (direct prog (codal w)) /\
  defaultFileSystem (snd (via_facade prog w)) = defaultFileSystem w.
Proof.
  destruct (via_facade_direct prog w) as [Hr He].
  split; [exact Hr|split; [exact He|]].
  apply via_facade_keeps_default.
Qed.

(** X3. For whole client programs, the receivers, the static pointer, the
    instances and the past do not matter: started from two worlds whose
    engines are in the same state, a program and the same program with
    every receiver replaced compute the same result and leave the engine
    in the same state. *)
Theorem program_receiver_independence {A : Type}
    (f : Z -> Z) (prog : Client A) (w1 w2 : World E) :
  codal w1 = codal w2 ->
  fst (via_facade (with_receiver f prog) w1) = fst (via_facade prog w2) /\
  codal (snd (via_facade (with_receiver f prog) w1)) =
  codal (snd (via_facade prog w2)).
Proof.
  intros He.
  destruct (via_facade_direct (with_receiver f prog) w1) as [R1 C1].
  destruct (via_facade_direct prog w2) as [R2 C2].
  rewrite R1, C1, R2, C2, direct_with_receiver, He; split; reflexivity.
Qed.

(** X4. The file operations never initialise the engine: a program without
    constructions makes no [init] call, however many operations it has and
    whatever they return. *)
Theorem file_operations_never_init prog w :
  constructions prog = 0%nat ->
  count_inits (calls (run prog w)) = count_inits (calls w) /\
  Forall (fun c => CodalFS.is_init c = false) (calls_since w (run prog w)).
Proof.
  intros H0; split.
  - rewrite run_counts_inits, H0; lia.
  - rewrite (calls_since_app w _ (map step_call prog))
      by apply run_delegates.
    clear w; induction prog as [|s prog IH]; [constructor|].
    unfold constructions in H0; rewrite filter_cons in H0.
    destruct (decide (constructs s = true)) as [Hs|Hs]; [discriminate H0|].
    cbn [map]; constructor; [|apply IH, H0].
    destruct s as [this r | p fs fp]; [|exfalso; apply Hs; reflexivity].
    destruct r; [exfalso; apply Hs|..]; reflexivity.
Qed.

(** X5. Once the module is loaded, [init] has been called, and it was
    called before anything else: whatever client code runs afterwards, the
    facade's first call on the engine is the [init] of the load-time
    construction, followed by one call per step of the client code. *)
Theorem init_precedes_every_use p w prog :
  calls (run prog (snd (static_init p w))) =
  calls w ++ CodalFS.Init :: map step_call prog /\
  (1 <= count_inits (calls_since w (run prog (snd (static_init p w)))))%nat.
Proof.
  assert (Hc : calls (run prog (snd (static_init p w))) =
               calls w ++ CodalFS.Init :: map step_call prog).
  { destruct (run_delegates prog (snd (static_init p w))) as [Hc _].
    rewrite Hc, static_init_world; cbn [calls].
    rewrite <- app_assoc; reflexivity. }
  split; [exact Hc|].
  rewrite (calls_since_app w _ _ Hc).
  unfold count_inits; rewrite filter_cons.
  rewrite decide_True by reflexivity; cbn [length]; lia.
Qed.

(** X6. After load the static pointer designates a constructed instance,
    and it keeps doing so: no member call, construction or [new]
    expression removes the default instance or moves the pointer off
    it. *)
Theorem default_instance_stays_live p w prog :
  let w' := run prog (snd (static_init p w)) in
  objects w' !! defaultFileSystem w' = Some mkFields.
Proof.
  intros w'; subst w'.
  rewrite run_keeps_default, static_init_world; cbn [defaultFileSystem].
  destruct (run_keeps_instance prog
              {| defaultFileSystem := p;
                 objects := <[p := mkFields]> (objects w);
                 codal := snd (CodalFS.init (codal w));
                 calls := calls w ++ [CodalFS.Init] |} p) as [[] Hx].
  - cbn [objects]; rewrite lookup_insert_eq; eauto.
  - exact Hx.
Qed.

End ProgramProperties.

(** X3 at the documented write sequence, run on a receiver at 24 from the
    bare world and on the default instance from the loaded world. *)
Lemma program_receiver_independence_write_hello :
  MicroBitFileSystem.codal Stub.bare = MicroBitFileSystem.codal Stub.loaded /\
  fst (via_facade (with_receiver (fun _ => 24) (write_hello 536875008)) Stub.bare) =
  fst (via_facade (write_hello 536875008) Stub.loaded) /\
  MicroBitFileSystem.codal
    (snd (via_facade (with_receiver (fun _ => 24) (write_hello 536875008)) Stub.bare)) =
  MicroBitFileSystem.codal (snd (via_facade (write_hello 536875008) Stub.loaded)).
Proof.
  split; [reflexivity|].
  apply (program_receiver_independence (fun _ => 24) (write_hello 536875008)
           Stub.bare Stub.loaded).
  reflexivity.
Defined.

(** X4 at open, write, close on the loaded world. *)
Lemma file_operations_never_init_open_write_close :
  constructions
    [Invoke 5 (ROpen 77 0); Invoke 5 (RWrite 0 4096 7); Invoke 6 (RClose 0)] = 0%nat /\
  count_inits
    (MicroBitFileSystem.calls
       (run [Invoke 5 (ROpen 77 0); Invoke 5 (RWrite 0 4096 7); Invoke 6 (RClose 0)]
            Stub.loaded)) =
  count_inits (MicroBitFileSystem.calls Stub.loaded) /\
  Forall (fun c => CodalFS.is_init c = false)
    (calls_since Stub.loaded
       (run [Invoke 5 (ROpen 77 0); Invoke 5 (RWrite 0 4096 7); Invoke 6 (RClose 0)]
            Stub.loaded)).
Proof.
  split; [reflexivity|].
  apply (file_operations_never_init
           [Invoke 5 (ROpen 77 0); Invoke 5 (RWrite 0 4096 7); Invoke 6 (RClose 0)]
           Stub.loaded).
  reflexivity.
Defined.
